(** * L4.py: retrieval tools offered to a chat model

    A shallow embedding of
    [lessons/04-give-the-llm-access-to-tools/L4.py]: the two retrieval
    tools, the helpers they call and the demonstration [main].

    The script talks to three collaborators.  They are modelled as follows.
    - The MongoDB deployment is a value, [store]: database name, collection
      name, documents in natural order.  The two server operations the script
      issues ([aggregate] with [$vectorSearch] and [$project], [find_one])
      are functions over it.  The approximate nearest-neighbour ranking of
      the vector index is an oracle, [knn].
    - The embedding provider and the chat model are oracles that answer or
      raise, [voyage_embed] and [chat_completion].
    - Every oracle sees the history of the run, so that nothing forces two
      equal requests to receive equal answers.
    Python exceptions are the [Raise] outcome of the monad [M]; every call to
    a collaborator is recorded, with its answer, in the [log] of the world. *)

From Stdlib Require Import Floats.PrimFloat.
From stdpp Require Import gmap strings list fin_maps.

Open Scope string_scope.
Open Scope list_scope.

(** ** Values and documents *)

(** The Python values the script handles; pymongo decodes BSON into them
    (null is [None], a double is a [float], an array of doubles a list). *)
Inductive value :=
| VNone
| VStr (s : string)
| VInt (n : Z)
| VFloat (x : float)
| VVec (xs : list float).

(** A BSON document, and the [dict] pymongo returns for it. *)
Abbreviation document := (gmap string value).

(** [d.get(k)]: the value under [k], [None] when the key is missing. *)
Definition dict_get (d : document) (k : string) : value :=
  default VNone (d !! k).


Fixpoint floats_eqb (xs ys : list float) : bool :=
  match xs, ys with
  | [], [] => true
  | x :: xs', y :: ys' => PrimFloat.eqb x y && floats_eqb xs' ys'
  | _, _ => false
  end.

(** Equality as a query filter [{field: v}] tests it. *)
Definition value_eqb (a b : value) : bool :=
  match a, b with
  | VNone, VNone => true
  | VStr s, VStr t => String.eqb s t
  | VInt m, VInt n => Z.eqb m n
  | VFloat x, VFloat y => PrimFloat.eqb x y
  | VVec xs, VVec ys => floats_eqb xs ys
  | _, _ => false
  end.

(** ** Handles *)

Record client := { client_id : nat; client_uri : string }.

(** [client[db][name]]: a collection handle is a client and two names. *)
Record collection := {
  coll_client : client;
  coll_db : string;
  coll_name : string
}.

Definition get_collection (c : client) (db name : string) : collection :=
  {| coll_client := c; coll_db := db; coll_name := name |}.

(** ** Requests *)

(** The right-hand sides of a projection: [0], [1], [{"$meta": name}]. *)
Inductive proj :=
| Exclude
| Include
| Meta (name : string).

Record vector_search := {
  index : string;
  path : string;
  queryVector : list float;
  numCandidates : nat;
  limit : nat
}.

Inductive stage :=
| VectorSearch (a : vector_search)
| Project (spec : list (string * proj)).

Inductive exn :=
| ProviderError (msg : string)
| TypeError
| KeyError (k : string)
| IndexError.

Inductive outcome (A : Type) :=
| Ret (a : A)
| Raise (e : exn).
Arguments Ret {A} a.
Arguments Raise {A} e.

(** What [voyageai.Client.embed] returns: the [embeddings] attribute. *)
Record embeddings_object := { embeddings : list (list float) }.

Inductive role := Human | System | AI.

Record message := { msg_role : role; msg_content : string }.

(** What a bound tool shows to the model: its name and its docstring. *)
Record tool_schema := { schema_name : string; schema_description : string }.

Record chat_request := {
  req_api_key : string;
  req_model : string;
  req_temperature : Z;
  req_tools : list tool_schema;
  req_messages : list message
}.

Record tool_call := {
  call_name : string;
  call_args : list (string * string);
  call_id : string
}.

Record ai_message := { content : string; tool_calls : list tool_call }.

(** What [print] receives. *)
Inductive printed :=
| OutStr (s : string)
| OutToolCalls (tcs : list tool_call).

(** ** The world *)

Inductive event :=
| EvConnect (c : client)
| EvEmbed (api_key text model input_type : string)
    (answer : outcome embeddings_object)
| EvAggregate (coll : collection) (pipeline : list stage)
    (results : list document)
| EvFindOne (coll : collection) (filter : list (string * value))
    (projection : list (string * proj)) (result : option document)
| EvChat (req : chat_request) (answer : outcome ai_message)
| EvPrint (out : printed).

Record world := {
  store : gmap string (gmap string (list document));
  clients : nat;
  log : list event
}.

(** The documents of a collection; a collection that was never created reads
    as empty. *)
Definition coll_docs (st : gmap string (gmap string (list document)))
    (db name : string) : list document :=
  default [] (default ∅ (st !! db) !! name).

Record services := {
  voyage_embed : list event -> string -> string -> string -> string ->
                 outcome embeddings_object;
  knn : list event -> string -> string -> list float -> nat ->
        list document -> list (nat * float);
  chat_completion : list event -> chat_request -> outcome ai_message
}.

(** [key_param], the module of credentials the script imports; it is not
    part of the sources and its three constants are parameters. *)
Record key_param := {
  mongodb_uri : string;
  voyage_api_key : string;
  openai_api_key : string
}.

(** ** The monad of the script *)

Definition M (A : Type) : Type := world -> outcome A * world.

Definition ret {A} (a : A) : M A := fun w => (Ret a, w).

Definition raise {A} (e : exn) : M A := fun w => (Raise e, w).

Definition bind {A B} (m : M A) (k : A -> M B) : M B :=
  fun w =>
    match m w with
    | (Ret a, w') => k a w'
    | (Raise e, w') => (Raise e, w')
    end.

Definition emit (e : event) : M unit :=
  fun w =>
    (Ret tt, {| store := store w; clients := clients w; log := log w ++ [e] |}).

#[export] Instance M_ret : MRet M := @ret.
#[export] Instance M_bind : MBind M := fun A B k m => bind m k.

(** ** The server side of the two store operations *)

(** A document travelling through a pipeline, with the score that
    [$vectorSearch] attaches to it as metadata. *)
Abbreviation row := (document * option float)%type.

(** Modelled from the spec: the [$vectorSearch] stage of the database server,
    which is not part of the sources.  "a final result limit of 5 (top-K by
    similarity score)", "if fewer than 5 matches exist, use however many are
    returned": the index ranks stored documents (positions in the collection,
    best first, chosen by [knn]) and the stage passes on the first [limit] of
    them. *)
Definition vector_search_stage (svc : services) (h : list event)
    (a : vector_search) (docs : list document) : list row :=
  take (limit a)
    (omap (fun '(i, score) => (fun d => (d, Some score)) <$> docs !! i)
       (knn svc h (index a) (path a) (queryVector a) (numCandidates a) docs)).

Definition is_exclude (p : proj) : bool :=
  match p with Exclude => true | _ => false end.

Definition meta_value (name : string) (r : row) : option value :=
  if String.eqb name "vectorSearchScore" then VFloat <$> r.2 else None.

(** One entry of an inclusion projection, applied to the output built so
    far. *)
Definition project_field (r : row) (fp : string * proj) (acc : document)
    : document :=
  match fp.2 with
  | Exclude => delete fp.1 acc
  | Include =>
      match r.1 !! fp.1 with
      | Some v => <[fp.1 := v]> acc
      | None => acc
      end
  | Meta name =>
      match meta_value name r with
      | Some v => <[fp.1 := v]> acc
      | None => acc
      end
  end.

(** A projection.  When every entry is [0] the named fields are dropped and
    the rest is kept.  Otherwise only the fields marked [1] (where the
    document has them) and the metadata are kept, together with [_id] unless
    it is marked [0]. *)
Definition project_row (spec : list (string * proj)) (r : row) : document :=
  if forallb (fun fp => is_exclude fp.2) spec
  then foldr (fun fp acc => delete fp.1 acc) r.1 spec
  else foldr (project_field r)
         (match r.1 !! "_id" with
          | Some v => {["_id" := v]}
          | None => ∅
          end) spec.

Definition run_stage (svc : services) (h : list event) (s : stage)
    (rows : list row) : list row :=
  match s with
  | VectorSearch a => vector_search_stage svc h a (fst <$> rows)
  | Project spec => (fun r => (project_row spec r, r.2)) <$> rows
  end.

Definition run_pipeline (svc : services) (h : list event)
    (pipeline : list stage) (docs : list document) : list document :=
  fst <$> foldl (fun rows s => run_stage svc h s rows)
            ((fun d => (d, None)) <$> docs) pipeline.

Definition matches (filter : list (string * value)) (d : document) : bool :=
  forallb (fun kv => match d !! kv.1 with
                     | Some v => value_eqb v kv.2
                     | None => false
                     end) filter.

(** The first document, in natural order, that satisfies the filter; the
    projection is applied to it. *)
Definition run_find_one (filter : list (string * value))
    (projection : list (string * proj)) (docs : list document)
    : option document :=
  (fun d => project_row projection (d, None)) <$> List.find (matches filter) docs.

(** ** Python helpers *)

(** [bool(x)] for what [find_one] returns: [None] and the empty [dict] are
    false. *)
Definition truthy (document : option document) : bool :=
  match document with
  | Some d => negb (Nat.eqb (size d) 0)
  | None => false
  end.

(** [d[k]] *)
Definition getitem (d : document) (k : string) : M value :=
  match d !! k with
  | Some v => ret v
  | None => raise (KeyError k)
  end.

Fixpoint str_items (xs : list value) : option (list string) :=
  match xs with
  | [] => Some []
  | VStr s :: xs' => cons s <$> str_items xs'
  | _ :: _ => None
  end.

(** [sep.join(xs)]: a [TypeError] unless every item is a [str]. *)
Definition str_join (sep : string) (xs : list value) : M value :=
  match str_items xs with
  | Some ss => ret (VStr (String.concat sep ss))
  | None => raise TypeError
  end.

(** [xs[i]] on a list *)
Definition list_getitem {A} (xs : list A) (i : nat) : M A :=
  match xs !! i with
  | Some x => ret x
  | None => raise IndexError
  end.

Definition nl : string := String (Ascii.ascii_of_nat 10) "".

(** ** The client side: pymongo, voyageai *)

(** [MongoClient(uri)].  The model covers the runs in which the driver
    answers: a malformed URI ([InvalidURI], [ConfigurationError]) or an
    unreachable deployment ([ServerSelectionTimeoutError]) makes the driver
    raise, and such runs are not described here, neither for the constructor
    nor for [aggregate] and [find_one] below. *)
Definition MongoClient (uri : string) : M client :=
  fun w =>
    let c := {| client_id := clients w; client_uri := uri |} in
    (Ret c,
     {| store := store w; clients := S (clients w);
        log := log w ++ [EvConnect c] |}).

Section Script.

Context (key : key_param) (svc : services).

Definition aggregate (coll : collection) (pipeline : list stage)
    : M (list document) :=
  fun w =>
    let results :=
      run_pipeline svc (log w) pipeline
        (coll_docs (store w) (coll_db coll) (coll_name coll)) in
    (Ret results,
     {| store := store w; clients := clients w;
        log := log w ++ [EvAggregate coll pipeline results] |}).

Definition find_one (coll : collection) (filter : list (string * value))
    (projection : list (string * proj)) : M (option document) :=
  fun w =>
    let result :=
      run_find_one filter projection
        (coll_docs (store w) (coll_db coll) (coll_name coll)) in
    (Ret result,
     {| store := store w; clients := clients w;
        log := log w ++ [EvFindOne coll filter projection result] |}).

(** [voyageai.Client(api_key=...).embed(text, model=..., input_type=...)] *)
Definition embed (api_key text model input_type : string)
    : M embeddings_object :=
  fun w =>
    let answer := voyage_embed svc (log w) api_key text model input_type in
    (answer,
     {| store := store w; clients := clients w;
        log := log w ++ [EvEmbed api_key text model input_type answer] |}).

(** ** The script *)

Definition init_mongodb : M (client * collection * collection) :=
  mongodb_client ← MongoClient (mongodb_uri key);
  let DB_NAME := "ai_agents" in
  let vs_collection := get_collection mongodb_client DB_NAME "chunked_docs" in
  let full_collection := get_collection mongodb_client DB_NAME "full_docs" in
  mret (mongodb_client, vs_collection, full_collection).

Definition generate_embedding (text : string) : M (list float) :=
  response ← embed (voyage_api_key key) text "voyage-3-lite" "query";
  embedding ← list_getitem (embeddings response) 0;
  mret embedding.

Definition search_pipeline (query_embedding : list float) : list stage :=
  [ VectorSearch {| index := "vector_index";
                    path := "embedding";
                    queryVector := query_embedding;
                    numCandidates := 150;
                    limit := 5 |};
    Project [ ("_id", Exclude);
              ("body", Include);
              ("score", Meta "vectorSearchScore") ] ].

Definition get_information_for_question_answering (user_query : string)
    : M value :=
  query_embedding ← generate_embedding user_query;
  '(_, vs_collection, _) ← init_mongodb;
  let pipeline := search_pipeline query_embedding in
  results ← aggregate vs_collection pipeline;
  context ← str_join (nl ++ nl) ((fun doc => dict_get doc "body") <$> results);
  mret context.

Definition get_page_content_for_summarization (user_query : string)
    : M value :=
  '(_, _, full_collection) ← init_mongodb;
  let query := [("title", VStr user_query)] in
  let projection := [("_id", Exclude); ("body", Include)] in
  document ← find_one full_collection query projection;
  if truthy document
  then getitem (default ∅ document) "body"
  else mret (VStr "Document not found").

(** ** The tools as the chat model sees them, the prompt, the model *)

(** What [@tool] makes of a function: [name] is the function's name,
    [description] its docstring (from which the library derives what it
    sends), [func] the function. *)
Record tool := {
  name : string;
  description : string;
  func : string -> M value
}.

Definition question_answering_tool : tool :=
  {| name := "get_information_for_question_answering";
     description :=
       String.concat nl
         [ "Retrieve relevant documents for a user query using vector search.";
           "";
           "Args:";
           "    user_query (str): The user's query.";
           "";
           "Returns:";
           "    str: The retrieved documents as a string." ];
     func := get_information_for_question_answering |}.

Definition summarization_tool : tool :=
  {| name := "get_page_content_for_summarization";
     description :=
       String.concat nl
         [ "Retrieve the content of a documentation page for summarization.";
           "";
           "Args:";
           "    user_query (str): The user's query (title of the documentation page).";
           "";
           "Returns:";
           "    str: The content of the documentation page." ];
     func := get_page_content_for_summarization |}.

Definition schema_of (t : tool) : tool_schema :=
  {| schema_name := name t; schema_description := description t |}.

(** [ChatOpenAI(openai_api_key=..., temperature=..., model=...)], and the
    tools bound to it. *)
Record chat_model := {
  llm_api_key : string;
  llm_temperature : Z;
  llm_model : string;
  llm_tools : list tool_schema
}.

Definition ChatOpenAI (api_key : string) (temperature : Z) (model : string)
    : chat_model :=
  {| llm_api_key := api_key; llm_temperature := temperature;
     llm_model := model; llm_tools := [] |}.

Definition bind_tools (llm : chat_model) (tools : list tool) : chat_model :=
  {| llm_api_key := llm_api_key llm; llm_temperature := llm_temperature llm;
     llm_model := llm_model llm; llm_tools := schema_of <$> tools |}.

(** The entries of [ChatPromptTemplate.from_messages]: a bare string is a
    template for a human message, a placeholder stands for a list of
    messages. *)
Inductive prompt_part :=
| FromString (template : string)
| MessagesPlaceholder (variable_name : string).

Record chat_prompt := {
  parts : list prompt_part;
  partial_variables : list (string * string)
}.

Definition from_messages (ps : list prompt_part) : chat_prompt :=
  {| parts := ps; partial_variables := [] |}.

Definition partial (p : chat_prompt) (var val : string) : chat_prompt :=
  {| parts := parts p;
     partial_variables := partial_variables p ++ [(var, val)] |}.

End Script.

(** [replace pat rep s]: every occurrence of [pat] in [s], from the left,
    becomes [rep]; [skip] counts the characters of an occurrence still to be
    dropped. *)
Fixpoint replace_from (pat rep : string) (skip : nat) (s : string) : string :=
  match s with
  | EmptyString => EmptyString
  | String c s' =>
      match skip with
      | S k => replace_from pat rep k s'
      | O =>
          if String.prefix pat s
          then rep ++ replace_from pat rep (String.length pat - 1) s'
          else String c (replace_from pat rep 0 s')
      end
  end.

(** Filling the fields [{var}] of a template. *)
Definition format (template : string) (vars : list (string * string))
    : string :=
  foldl (fun t '(var, val) => replace_from ("{" ++ var ++ "}") val 0 t)
    template vars.

(** The messages a prompt produces for an input that is a list of strings:
    the list goes to the placeholder, every string a human message. *)
Definition format_messages (p : chat_prompt) (input : list string)
    : list message :=
  mbind (M := list)
    (fun part =>
       match part with
       | FromString t =>
           [ {| msg_role := Human;
                msg_content := format t (partial_variables p) |} ]
       | MessagesPlaceholder _ =>
           (fun s => {| msg_role := Human; msg_content := s |}) <$> input
       end) (parts p).

Section Main.

Context (key : key_param) (svc : services).

(** [(prompt | llm).invoke(input)]: one request to the chat model. *)
Definition invoke (prompt : chat_prompt) (llm : chat_model)
    (input : list string) : M ai_message :=
  fun w =>
    let req := {| req_api_key := llm_api_key llm;
                  req_model := llm_model llm;
                  req_temperature := llm_temperature llm;
                  req_tools := llm_tools llm;
                  req_messages := format_messages prompt input |} in
    let answer := chat_completion svc (log w) req in
    (answer,
     {| store := store w; clients := clients w;
        log := log w ++ [EvChat req answer] |}).

Definition print (out : printed) : M unit := emit (EvPrint out).

Definition demo_question : string :=
  "What are some best practices for data backups in MongoDB?".

Definition main : M unit :=
  '(mongodb_client, vs_collection, full_collection) ← init_mongodb key;
  let tools := [ question_answering_tool key svc;
                 summarization_tool key ] in
  let llm := ChatOpenAI (openai_api_key key) 0 "gpt-4o" in
  let prompt :=
    from_messages
      [ FromString
          ("You are a helpful AI assistant."
           ++ " You are provided with tools to answer questions and summarize technical documentation related to MongoDB."
           ++ " Think step-by-step and use these tools to get the information required to answer the user query."
           ++ " Do not re-run tools unless absolutely necessary."
           ++ " If you are not able to get enough information using the tools, reply with I DON'T KNOW."
           ++ " You have access to the following tools: {tool_names}.");
        MessagesPlaceholder "messages" ] in
  let prompt := partial prompt "tool_names" (String.concat ", " (name <$> tools)) in
  let bind_tools := bind_tools llm tools in
  response ← invoke prompt bind_tools [demo_question];
  let tool_call_check := tool_calls response in
  print (OutStr "Tool call check:");;
  print (OutToolCalls tool_call_check).

End Main.

(** ** Reading the log and the store *)

Definition full_docs (w : world) : list document :=
  coll_docs (store w) "ai_agents" "full_docs".

Definition chunked_docs (w : world) : list document :=
  coll_docs (store w) "ai_agents" "chunked_docs".

(** The clients created by the events of a log. *)
Definition connects (es : list event) : list client :=
  omap (fun e => match e with EvConnect c => Some c | _ => None end) es.

(** The collection handles on which the events of a log query the store. *)
Definition store_ops (es : list event) : list collection :=
  omap (fun e => match e with
                 | EvAggregate coll _ _ | EvFindOne coll _ _ _ => Some coll
                 | _ => None
                 end) es.

(** Client identifiers are handed out in increasing order. *)
Definition well_formed (w : world) : Prop :=
  forall c, c ∈ connects (log w) -> client_id c < clients w.

Definition has_title (t : string) (d : document) : Prop :=
  d !! "title" = Some (VStr t).

Definition has_text_body (d : document) : Prop :=
  exists s, d !! "body" = Some (VStr s).

(** The bodies the search tool reads off its results. *)
Definition bodies (results : list document) : list value :=
  (fun doc => dict_get doc "body") <$> results.

Definition blank_line : string := nl ++ nl.

Section Reading.

Context (key : key_param) (svc : services).

(** The client that [init_mongodb] creates in world [w]. *)
Definition next_client (w : world) : client :=
  {| client_id := clients w; client_uri := mongodb_uri key |}.

Definition lookup_filter (t : string) : list (string * value) :=
  [("title", VStr t)].

Definition lookup_projection : list (string * proj) :=
  [("_id", Exclude); ("body", Include)].

Definition search_args (query_embedding : list float) : vector_search :=
  {| index := "vector_index"; path := "embedding";
     queryVector := query_embedding; numCandidates := 150; limit := 5 |}.

Definition search_projection : list (string * proj) :=
  [("_id", Exclude); ("body", Include); ("score", Meta "vectorSearchScore")].

(** What the aggregation of the search tool returns when it is submitted in
    world [w] (the client is created first). *)
Definition search_results (w : world) (query_embedding : list float)
    : list document :=
  run_pipeline svc (log w ++ [EvConnect (next_client w)])
    (search_pipeline query_embedding) (chunked_docs w).

End Reading.

(** Modelled from the spec: the hosted embedding model behind
    [voyageai.Client.embed], which is not part of the sources.  "Output: a
    fixed-dimension numeric vector representing the text's semantic content,
    produced by a named hosted model variant": each model variant has a
    dimension, and every answer of the provider carries at least one vector
    and only vectors of the dimension of the model asked for. *)
Definition fixed_dimension (svc : services) (dim : string -> nat) : Prop :=
  forall h api_key text model input_type response,
    voyage_embed svc h api_key text model input_type = Ret response ->
    embeddings response <> [] /\
    Forall (fun v => length v = dim model) (embeddings response).

(** ** A small deployment

    The scenario of the specification: a full document titled "Backups",
    two chunks; next to it a document without a body, one with an empty
    body and a chunk without a body. *)

Definition demo_key : key_param :=
  {| mongodb_uri := "mongodb://localhost:27017";
     voyage_api_key := "voyage-key";
     openai_api_key := "openai-key" |}.

Definition backups_doc : document :=
  {[ "_id" := VInt 1; "title" := VStr "Backups";
     "body" := VStr "Use mongodump regularly." ]}.

Definition untitled_body_doc : document :=
  {[ "_id" := VInt 2; "title" := VStr "Draft" ]}.

Definition empty_body_doc : document :=
  {[ "_id" := VInt 3; "title" := VStr "Empty"; "body" := VStr "" ]}.

Definition chunk_a : document :=
  {[ "_id" := VInt 10; "body" := VStr "Take snapshots.";
     "embedding" := VVec [0.5%float; 0.25%float] ]}.

Definition chunk_b : document :=
  {[ "_id" := VInt 11; "body" := VStr "Test your restores.";
     "embedding" := VVec [0.25%float; 0.5%float] ]}.

Definition chunk_without_body : document :=
  {[ "_id" := VInt 12; "embedding" := VVec [1%float; 0%float] ]}.

Definition demo_store (chunks : list document)
    : gmap string (gmap string (list document)) :=
  {[ "ai_agents" :=
       {[ "full_docs" := [backups_doc; untitled_body_doc; empty_body_doc];
          "chunked_docs" := chunks ]} ]}.

Definition demo_world (chunks : list document) : world :=
  {| store := demo_store chunks; clients := 0; log := [] |}.

(** A provider whose vectors have as many components as the name of the
    model has characters, an index that ranks the stored chunks in reverse
    order, a chat model that asks for the search tool. *)
Definition demo_services : services :=
  {| voyage_embed := fun _ _ _ model _ =>
       Ret {| embeddings := [replicate (String.length model) 0.5%float] |};
     knn := fun _ _ _ _ _ docs =>
       (fun i => (i, 0.5%float)) <$> reverse (seq 0 (length docs));
     chat_completion := fun _ _ =>
       Ret {| content := "";
              tool_calls :=
                [ {| call_name := "get_information_for_question_answering";
                     call_args := [("user_query", demo_question)];
                     call_id := "call_1" |} ] |} |}.

(** A provider that is down. *)
Definition failing_services : services :=
  {| voyage_embed := fun _ _ _ _ _ => Raise (ProviderError "unreachable");
     knn := fun _ _ _ _ _ _ => [];
     chat_completion := fun _ _ => Raise (ProviderError "unreachable") |}.

(** The stored chunks at the first five valid positions of the ranking:
    what the search tool reads, scores left aside. *)
Definition ranked_chunks (svc : services) (h : list event)
    (query_embedding : list float) (docs : list document) : list document :=
  take 5
    (omap (fun i => docs !! i)
       (fst <$> knn svc h "vector_index" "embedding" query_embedding 150 docs)).

(** The two tools, as [main] lists them. *)
Definition tools (key : key_param) (svc : services) : list tool :=
  [question_answering_tool key svc; summarization_tool key].

(** A full document whose body is null. *)
Definition null_body_doc : document :=
  {[ "_id" := VInt 4; "title" := VStr "Pending"; "body" := VNone ]}.

(** A second document titled "Backups". *)
Definition second_backups_doc : document :=
  {[ "_id" := VInt 5; "title" := VStr "Backups";
     "body" := VStr "Use snapshots instead." ]}.

Definition library_world (full chunks : list document) : world :=
  {| store := {[ "ai_agents" := {[ "full_docs" := full;
                                   "chunked_docs" := chunks ]} ]};
     clients := 0; log := [] |}.

(** [demo_services] with other scores for the same ranking. *)
Definition rescored_services : services :=
  {| voyage_embed := voyage_embed demo_services;
     knn := fun _ _ _ _ _ docs =>
       (fun i => (i, 0.25%float)) <$> reverse (seq 0 (length docs));
     chat_completion := chat_completion demo_services |}.

(** A provider that answers without any vector. *)
Definition empty_answer_services : services :=
  {| voyage_embed := fun _ _ _ _ _ => Ret {| embeddings := [] |};
     knn := knn demo_services;
     chat_completion := chat_completion demo_services |}.

(** The text of the body of a document, when it has one. *)
Definition body_text (d : document) : option string :=
  match d !! "body" with
  | Some (VStr s) => Some s
  | _ => None
  end.

(** The hits of the vector search that the search tool submits in world
    [w], with the arguments of the source, over the stored chunks (the client
    is created first). *)
Definition search_hits (key : key_param) (svc : services) (w : world)
    (query_embedding : list float) : list row :=
  vector_search_stage svc (log w ++ [EvConnect (next_client key w)])
    (search_args query_embedding) (chunked_docs w).

(** ** Lemmas on the helpers *)

Lemma str_items_Some xs ss : str_items xs = Some ss <-> xs = VStr <$> ss.
Proof.
  revert ss. induction xs as [|x xs IH]; intros ss; simpl.
  - split.
    + intros [= <-]. done.
    + destruct ss; [done | discriminate].
  - destruct x; try (split; [discriminate | destruct ss; discriminate]).
    destruct (str_items xs) as [ss'|] eqn:E; simpl.
    + split.
      * intros [= <-]. simpl. f_equal. by apply IH.
      * destruct ss as [|s0 ss0]; [discriminate|]. simpl. intros [= -> H].
        apply IH in H. congruence.
    + split; [discriminate|].
      destruct ss as [|s0 ss0]; [discriminate|]. simpl. intros [= -> H].
      apply IH in H. discriminate.
Qed.




Lemma value_eqb_str v t : value_eqb v (VStr t) = true <-> v = VStr t.
Proof.
  destruct v; simpl; try (split; [discriminate | intros [=]]).
  rewrite String.eqb_eq. split; [congruence | by intros [= ->]].
Qed.

Lemma matches_title t d : matches [("title", VStr t)] d = true <-> has_title t d.
Proof.
  unfold matches, has_title. simpl. rewrite andb_true_r.
  destruct (d !! "title") as [v|]; [|split; discriminate].
  rewrite value_eqb_str. split; congruence.
Qed.

Lemma find_title_none t docs :
  Forall (fun d => ~ has_title t d) docs ->
  List.find (matches [("title", VStr t)]) docs = None.
Proof.
  induction 1 as [|d docs Hd _ IH]; [done|]. cbn [List.find].
  destruct (matches [("title", VStr t)] d) eqn:E; [|done].
  apply matches_title in E. done.
Qed.

Lemma find_title_first t pre d post :
  Forall (fun d' => ~ has_title t d') pre ->
  has_title t d ->
  List.find (matches [("title", VStr t)]) (pre ++ d :: post) = Some d.
Proof.
  intros Hpre Hd. induction Hpre as [|d' pre Hd' _ IH]; cbn [List.find app].
  - apply matches_title in Hd. by rewrite Hd.
  - destruct (matches [("title", VStr t)] d') eqn:E; [|done].
    apply matches_title in E. done.
Qed.

(** What the projection of the lookup tool keeps: the body, if there is
    one, and nothing else. *)
Lemma project_body_only (d : document) (score : option float) :
  project_row [("_id", Exclude); ("body", Include)] (d, score)
  = match d !! "body" with
    | Some v => {["body" := v]}
    | None => ∅
    end.
Proof.
  unfold project_row. simpl. unfold project_field. simpl.
  apply map_eq. intros k.
  destruct (decide (k = "_id")) as [->|Hid].
  - rewrite lookup_delete_eq. destruct (d !! "body"); [|done].
    by rewrite lookup_singleton_ne.
  - rewrite lookup_delete_ne by done.
    destruct (d !! "body") as [v|] eqn:Hb.
    + destruct (decide (k = "body")) as [->|Hk].
      * by rewrite lookup_insert_eq, lookup_singleton_eq.
      * rewrite lookup_insert_ne by done. rewrite lookup_singleton_ne by done.
        destruct (d !! "_id"); [by rewrite lookup_singleton_ne | done].
    + destruct (d !! "_id"); [by rewrite lookup_singleton_ne | done].
Qed.

(** What the projection of the search tool keeps: the body, if there is
    one, and the score. *)
Lemma project_body_score (d : document) (score : float) (k : string) :
  project_row [("_id", Exclude); ("body", Include);
               ("score", Meta "vectorSearchScore")] (d, Some score) !! k
  = if decide (k = "body") then d !! "body"
    else if decide (k = "score") then Some (VFloat score)
    else None.
Proof.
  unfold project_row. simpl. unfold project_field. simpl.
  destruct (decide (k = "_id")) as [->|Hid].
  - rewrite lookup_delete_eq. done.
  - rewrite lookup_delete_ne by done.
    assert (Hbase : forall k', k' <> "_id" ->
              (match d !! "_id" with
               | Some v => ({["_id" := v]} : document)
               | None => ∅
               end) !! k' = None).
    { intros k' Hk'. destruct (d !! "_id"); [by rewrite lookup_singleton_ne | done]. }
    destruct (decide (k = "body")) as [->|Hb].
    + destruct (d !! "body") as [v|] eqn:E.
      * by rewrite lookup_insert_eq.
      * rewrite lookup_insert_ne by done. by apply Hbase.
    + assert (Hs : (<["score" := VFloat score]>
                 (match d !! "_id" with
                  | Some v => ({["_id" := v]} : document)
                  | None => ∅
                  end)) !! k
              = if decide (k = "score") then Some (VFloat score) else None).
      { destruct (decide (k = "score")) as [->|Hsc].
        - by rewrite lookup_insert_eq.
        - rewrite lookup_insert_ne by done. by apply Hbase. }
      destruct (d !! "body"); [rewrite lookup_insert_ne by done|]; exact Hs.
Qed.

(** ** The runs of the two tools *)

Section Runs.

Context (key : key_param) (svc : services).

Lemma run_init_mongodb w :
  init_mongodb key w
  = (Ret (next_client key w,
          get_collection (next_client key w) "ai_agents" "chunked_docs",
          get_collection (next_client key w) "ai_agents" "full_docs"),
     {| store := store w; clients := S (clients w);
        log := log w ++ [EvConnect (next_client key w)] |}).
Proof. reflexivity. Qed.

(** The lookup tool, step by step: one client, one [find_one], and the
    answer read off the first document with the title. *)
Lemma run_lookup t w :
  get_page_content_for_summarization key t w
  = (match List.find (matches (lookup_filter t)) (full_docs w) with
     | Some d =>
         match d !! "body" with
         | Some v => Ret v
         | None => Ret (VStr "Document not found")
         end
     | None => Ret (VStr "Document not found")
     end,
     {| store := store w; clients := S (clients w);
        log := log w ++
          [ EvConnect (next_client key w);
            EvFindOne (get_collection (next_client key w) "ai_agents" "full_docs")
              (lookup_filter t) lookup_projection
              (run_find_one (lookup_filter t) lookup_projection (full_docs w)) ] |}).
Proof.
  unfold get_page_content_for_summarization, mbind, M_bind, bind.
  rewrite run_init_mongodb. unfold find_one. cbn [store clients log coll_db coll_name get_collection].
  fold (full_docs w). fold (lookup_filter t). fold lookup_projection.
  rewrite <- app_assoc. cbn [app].
  f_equal.
  unfold run_find_one.
  destruct (List.find (matches (lookup_filter t)) (full_docs w)) as [d|]; [|done].
  cbn [fmap option_fmap option_map]. unfold lookup_projection.
  rewrite project_body_only.
  destruct (d !! "body") as [v|] eqn:Hb.
  - unfold truthy. rewrite map_size_singleton. cbn.
    unfold getitem. by rewrite lookup_singleton_eq.
  - unfold truthy. by rewrite map_size_empty.
Qed.

Lemma run_generate_embedding text w :
  generate_embedding key svc text w
  = (match voyage_embed svc (log w) (voyage_api_key key) text
             "voyage-3-lite" "query" with
     | Ret response =>
         match embeddings response !! 0 with
         | Some embedding => Ret embedding
         | None => Raise IndexError
         end
     | Raise e => Raise e
     end,
     {| store := store w; clients := clients w;
        log := log w ++
          [ EvEmbed (voyage_api_key key) text "voyage-3-lite" "query"
              (voyage_embed svc (log w) (voyage_api_key key) text
                 "voyage-3-lite" "query") ] |}).
Proof.
  unfold generate_embedding, mbind, M_bind, bind, embed.
  destruct (voyage_embed svc (log w) (voyage_api_key key) text
              "voyage-3-lite" "query") as [response|e]; [|done].
  unfold list_getitem. by destruct (embeddings response !! 0).
Qed.

Lemma search_results_hits w qv :
  search_results key svc w qv
  = project_row search_projection
    <$> vector_search_stage svc (log w ++ [EvConnect (next_client key w)])
          (search_args qv) (chunked_docs w).
Proof.
  unfold search_results, run_pipeline, search_pipeline.
  cbn [foldl run_stage].
  rewrite <- !list_fmap_compose.
  rewrite (list_fmap_ext (fst ∘ (fun d : document => (d, @None float))) id
             (chunked_docs w)) by done.
  rewrite list_fmap_id.
  by apply list_fmap_ext.
Qed.

Lemma search_results_length w qv : length (search_results key svc w qv) <= 5.
Proof.
  rewrite search_results_hits, length_fmap. unfold vector_search_stage.
  rewrite length_take. cbn [limit search_args]. lia.
Qed.

(** Every hit is a stored chunk with a score. *)
Lemma vector_search_stage_hits h a docs r :
  r ∈ vector_search_stage svc h a docs ->
  exists d score, r = (d, Some score) /\ d ∈ docs.
Proof.
  unfold vector_search_stage. intros Hr.
  apply subseteq_take in Hr.
  apply list_elem_of_omap in Hr as ([i score] & _ & Hd).
  destruct (docs !! i) as [d|] eqn:Hi; [|discriminate].
  injection Hd as <-. exists d, score. split; [done|].
  by eapply list_elem_of_lookup_2.
Qed.

Lemma search_results_chunks w qv r :
  r ∈ search_results key svc w qv ->
  exists d score,
    d ∈ chunked_docs w /\
    r !! "body" = d !! "body" /\
    r !! "score" = Some (VFloat score) /\
    forall k, k <> "body" -> k <> "score" -> r !! k = None.
Proof.
  rewrite search_results_hits. intros Hr.
  apply list_elem_of_fmap in Hr as (hit & -> & Hhit).
  apply vector_search_stage_hits in Hhit as (d & score & -> & Hd).
  exists d, score. split; [done|]. unfold search_projection.
  repeat split.
  - by rewrite project_body_score.
  - by rewrite project_body_score.
  - intros k Hb Hs. rewrite project_body_score.
    by rewrite !decide_False.
Qed.

(** The search tool, step by step: the embedding call, then one client and
    one aggregation, then the join. *)
Lemma run_search q w :
  get_information_for_question_answering key svc q w
  = match generate_embedding key svc q w with
    | (Raise e, w1) => (Raise e, w1)
    | (Ret qv, w1) =>
        (match str_items (bodies (search_results key svc w1 qv)) with
         | Some ss => Ret (VStr (String.concat blank_line ss))
         | None => Raise TypeError
         end,
         {| store := store w1; clients := S (clients w1);
            log := log w1 ++
              [ EvConnect (next_client key w1);
                EvAggregate
                  (get_collection (next_client key w1) "ai_agents" "chunked_docs")
                  (search_pipeline qv) (search_results key svc w1 qv) ] |})
    end.
Proof.
  unfold get_information_for_question_answering.
  unfold mbind at 1. unfold M_bind at 1. unfold bind at 1.
  destruct (generate_embedding key svc q w) as [[qv|e] w1]; [|done].
  unfold mbind, M_bind, bind. rewrite run_init_mongodb.
  unfold aggregate.
  cbn [store clients log coll_db coll_name get_collection].
  fold (chunked_docs w1). fold (search_results key svc w1 qv).
  rewrite <- app_assoc. cbn [app].
  fold blank_line. fold (bodies (search_results key svc w1 qv)).
  unfold str_join.
  by destruct (str_items (bodies (search_results key svc w1 qv))).
Qed.

End Runs.

(** ** The lookup tool *)

(** C2: for a title present in the full-documents collection, the lookup
    tool returns the body text stored in the document of that title, the
    first such document in the order of the collection (the only one when
    titles are unique). *)
Theorem lookup_returns_stored_body (key : key_param) (w : world)
    (t : string) (d : document) (b : string) (pre post : list document) :
  full_docs w = pre ++ d :: post ->
  Forall (fun d' => ~ has_title t d') pre ->
  has_title t d ->
  d !! "body" = Some (VStr b) ->
  (get_page_content_for_summarization key t w).1 = Ret (VStr b).
Proof.
  intros Hdocs Hpre Ht Hb. rewrite run_lookup. cbn [fst].
  rewrite Hdocs. unfold lookup_filter.
  rewrite (find_title_first t pre d post Hpre Ht). by rewrite Hb.
Qed.

Lemma lookup_returns_stored_body_witness :
  (get_page_content_for_summarization demo_key "Backups" (demo_world [])).1
  = Ret (VStr "Use mongodump regularly.").
Proof.
  apply (lookup_returns_stored_body demo_key (demo_world []) "Backups"
           backups_doc "Use mongodump regularly." []
           [untitled_body_doc; empty_body_doc]).
  - vm_compute. reflexivity.
  - constructor.
  - vm_compute. reflexivity.
  - vm_compute. reflexivity.
Defined.

(** C3: for a title that no document of the full-documents collection
    bears, the lookup tool returns the string "Document not found". *)
Theorem lookup_absent_title_not_found (key : key_param) (w : world)
    (t : string) :
  Forall (fun d => ~ has_title t d) (full_docs w) ->
  (get_page_content_for_summarization key t w).1
  = Ret (VStr "Document not found").
Proof.
  intros Habsent. rewrite run_lookup. cbn [fst]. unfold lookup_filter.
  by rewrite (find_title_none t (full_docs w) Habsent).
Qed.

Lemma lookup_absent_title_not_found_witness :
  (get_page_content_for_summarization demo_key "Unknown" (demo_world [])).1
  = Ret (VStr "Document not found").
Proof.
  apply (lookup_absent_title_not_found demo_key (demo_world []) "Unknown").
  repeat constructor; vm_compute; discriminate.
Defined.

(** C9: the lookup tool branches on the truthiness of what [find_one]
    returns, not on whether a document matched.  When the document of the
    title has no body field, the projection yields the empty document, which
    is false, and the tool returns "Document not found"; when its body is
    the empty string, the projection is not empty and the tool returns the
    empty string. *)
Theorem lookup_branches_on_truthiness (key : key_param) (w : world)
    (t : string) (d : document) (pre post : list document) :
  full_docs w = pre ++ d :: post ->
  Forall (fun d' => ~ has_title t d') pre ->
  has_title t d ->
  let document :=
    run_find_one [("title", VStr t)] [("_id", Exclude); ("body", Include)]
      (full_docs w) in
  (d !! "body" = None ->
     document = Some ∅ /\ truthy document = false /\
     (get_page_content_for_summarization key t w).1
     = Ret (VStr "Document not found")) /\
  (d !! "body" = Some (VStr "") ->
     truthy document = true /\
     (get_page_content_for_summarization key t w).1 = Ret (VStr "")).
Proof.
  intros Hdocs Hpre Ht document.
  assert (Hfind : List.find (matches [("title", VStr t)]) (full_docs w) = Some d).
  { rewrite Hdocs. by apply find_title_first. }
  assert (Hdoc : document
                 = Some (match d !! "body" with
                         | Some v => {["body" := v]}
                         | None => ∅
                         end)).
  { unfold document, run_find_one. rewrite Hfind. cbn [fmap option_fmap option_map].
    by rewrite project_body_only. }
  rewrite run_lookup. cbn [fst]. unfold lookup_filter. rewrite Hfind.
  split; intros Hb; rewrite Hdoc, Hb.
  - unfold truthy. by rewrite map_size_empty.
  - unfold truthy. by rewrite map_size_singleton.
Qed.

Lemma lookup_branches_on_truthiness_witness :
  (get_page_content_for_summarization demo_key "Draft" (demo_world [])).1
  = Ret (VStr "Document not found") /\
  (get_page_content_for_summarization demo_key "Empty" (demo_world [])).1
  = Ret (VStr "").
Proof.
  split.
  - apply (lookup_branches_on_truthiness demo_key (demo_world []) "Draft"
             untitled_body_doc [backups_doc] [empty_body_doc]).
    + vm_compute. reflexivity.
    + repeat constructor. vm_compute. discriminate.
    + vm_compute. reflexivity.
    + vm_compute. reflexivity.
  - apply (lookup_branches_on_truthiness demo_key (demo_world []) "Empty"
             empty_body_doc [backups_doc; untitled_body_doc] []).
    + vm_compute. reflexivity.
    + repeat constructor; vm_compute; discriminate.
    + vm_compute. reflexivity.
    + vm_compute. reflexivity.
Defined.

(** ** The search tool *)

Section Search.

Context (key : key_param) (svc : services).

(** The embedding call leaves the store and the clients alone. *)
Lemma generate_embedding_world text w r w1 :
  generate_embedding key svc text w = (r, w1) ->
  store w1 = store w /\ clients w1 = clients w /\
  exists answer,
    log w1 = log w ++
      [EvEmbed (voyage_api_key key) text "voyage-3-lite" "query" answer].
Proof.
  rewrite run_generate_embedding. intros [= _ <-]. cbn. eauto.
Qed.

Lemma generate_embedding_chunks text w r w1 :
  generate_embedding key svc text w = (r, w1) ->
  chunked_docs w1 = chunked_docs w.
Proof.
  intros H. apply generate_embedding_world in H as (Hs & _ & _).
  unfold chunked_docs. by rewrite Hs.
Qed.

(** Past the embedding call, the search tool is its aggregation and the
    join. *)
Lemma search_after_embedding q w qv w1 :
  generate_embedding key svc q w = (Ret qv, w1) ->
  get_information_for_question_answering key svc q w
  = (match str_items (bodies (search_results key svc w1 qv)) with
     | Some ss => Ret (VStr (String.concat blank_line ss))
     | None => Raise TypeError
     end,
     {| store := store w1; clients := S (clients w1);
        log := log w1 ++
          [ EvConnect (next_client key w1);
            EvAggregate
              (get_collection (next_client key w1) "ai_agents" "chunked_docs")
              (search_pipeline qv) (search_results key svc w1 qv) ] |}).
Proof. intros H. by rewrite run_search, H. Qed.

Lemma search_results_all_text w qv :
  Forall has_text_body (chunked_docs w) ->
  Forall has_text_body (search_results key svc w qv).
Proof.
  rewrite !Forall_forall. intros Hall r Hr.
  apply search_results_chunks in Hr as (d & _ & Hd & Hb & _).
  destruct (Hall d Hd) as [s Hs]. exists s. congruence.
Qed.

End Search.

(** The results of the aggregation are the projections of the hits. *)
Lemma search_results_search_hits (key : key_param) (svc : services)
    (w : world) (qv : list float) :
  search_results key svc w qv
  = project_row search_projection <$> search_hits key svc w qv.
Proof. apply search_results_hits. Qed.

Lemma bodies_search_hits (key : key_param) (svc : services) (w : world)
    (qv : list float) :
  bodies (search_results key svc w qv)
  = bodies (fst <$> search_hits key svc w qv).
Proof.
  rewrite search_results_search_hits. unfold bodies.
  rewrite <- !list_fmap_compose. apply Forall_fmap_ext, Forall_forall.
  intros hit Hhit.
  apply vector_search_stage_hits in Hhit as (d & score & -> & _).
  unfold compose. cbn [fst]. unfold dict_get, search_projection.
  by rewrite project_body_score.
Qed.

Lemma search_hits_length (key : key_param) (svc : services) (w : world)
    (qv : list float) :
  length (search_hits key svc w qv) <= 5.
Proof.
  unfold search_hits, vector_search_stage. rewrite length_take.
  cbn [limit search_args]. lia.
Qed.

Lemma omap_body_text_length (ds : list document) :
  length (omap body_text ds) <= length ds.
Proof.
  induction ds as [|d ds IH]; [done|]. cbn [omap list_omap].
  destruct (body_text d); cbn [length]; lia.
Qed.

Lemma body_text_dict_get (d : document) :
  body_text d
  = match dict_get d "body" with
    | VStr s => Some s
    | _ => None
    end.
Proof.
  unfold body_text, dict_get. by destruct (d !! "body") as [[]|].
Qed.

(** The join succeeds on the texts of the bodies, or not at all. *)
Lemma str_items_bodies (ds : list document) (ss : list string) :
  str_items (bodies ds) = Some ss -> ss = omap body_text ds.
Proof.
  revert ss. induction ds as [|d ds IH]; intros ss.
  - cbn. by intros [= <-].
  - change (bodies (d :: ds)) with (dict_get d "body" :: bodies ds).
    cbn [omap list_omap]. rewrite body_text_dict_get.
    destruct (dict_get d "body") as [|s| | |]; cbn [str_items];
      try discriminate.
    destruct (str_items (bodies ds)) as [ss'|];
      cbn [fmap option_fmap option_map]; [|discriminate].
    intros [= <-]. f_equal. by apply IH.
Qed.

Lemma str_items_text_bodies (ds : list document) :
  Forall has_text_body ds ->
  str_items (bodies ds) = Some (omap body_text ds) /\
  length (omap body_text ds) = length ds.
Proof.
  induction 1 as [|d ds [s Hs] _ [IH1 IH2]]; [done|].
  change (bodies (d :: ds)) with (dict_get d "body" :: bodies ds).
  cbn [omap list_omap]. rewrite body_text_dict_get.
  unfold dict_get. rewrite Hs. cbn [default from_option id str_items length].
  rewrite IH1. cbn [fmap option_fmap option_map].
  split; [done | by rewrite IH2].
Qed.

Lemma search_hits_text_bodies (key : key_param) (svc : services) (w : world)
    (qv : list float) :
  Forall has_text_body (chunked_docs w) ->
  Forall has_text_body (fst <$> search_hits key svc w qv).
Proof.
  rewrite !Forall_forall. intros Hall d Hd.
  apply list_elem_of_fmap in Hd as (hit & -> & Hhit).
  apply vector_search_stage_hits in Hhit as (d & score & -> & Hd).
  by apply Hall.
Qed.

(** C1: once the embedding call has returned, the segments of the search
    tool are the body texts of the hits of the vector search over the stored
    chunks, in the order of the ranking.  There are at most 5 of them;
    whatever the tool returns is the string that joins them with one blank
    line; and the tool does return it when every stored chunk has a text
    body. *)
Theorem search_returns_at_most_five_segments (key : key_param)
    (svc : services) (q : string) (w : world) (qv : list float)
    (w1 : world) :
  generate_embedding key svc q w = (Ret qv, w1) ->
  length (omap body_text (fst <$> search_hits key svc w1 qv)) <= 5 /\
  (forall v,
     (get_information_for_question_answering key svc q w).1 = Ret v ->
     v = VStr (String.concat blank_line
                 (omap body_text (fst <$> search_hits key svc w1 qv)))) /\
  (Forall has_text_body (chunked_docs w) ->
   (get_information_for_question_answering key svc q w).1
   = Ret (VStr (String.concat blank_line
                  (omap body_text (fst <$> search_hits key svc w1 qv))))).
Proof.
  intros Hemb.
  rewrite (search_after_embedding key svc q w qv w1 Hemb). cbn [fst].
  rewrite bodies_search_hits. split; [|split].
  - etrans; [apply omap_body_text_length|].
    rewrite length_fmap. apply search_hits_length.
  - intros v.
    destruct (str_items (bodies (fst <$> search_hits key svc w1 qv)))
      as [ss|] eqn:Hitems; [|discriminate].
    apply str_items_bodies in Hitems as ->. by intros [= <-].
  - intros Hall.
    rewrite <- (generate_embedding_chunks key svc q w _ w1 Hemb) in Hall.
    apply (search_hits_text_bodies key svc w1 qv) in Hall.
    apply str_items_text_bodies in Hall as [-> _]. done.
Qed.

Lemma search_returns_at_most_five_segments_witness :
  (get_information_for_question_answering demo_key demo_services
     "How do I back up?" (demo_world [chunk_a; chunk_b])).1
  = Ret (VStr ("Test your restores." ++ blank_line ++ "Take snapshots.")).
Proof.
  destruct (search_returns_at_most_five_segments demo_key demo_services
              "How do I back up?" (demo_world [chunk_a; chunk_b])
              (replicate 13 0.5%float)
              {| store := demo_store [chunk_a; chunk_b]; clients := 0;
                 log := [ EvEmbed "voyage-key" "How do I back up?"
                            "voyage-3-lite" "query"
                            (Ret {| embeddings := [replicate 13 0.5%float] |}) ] |})
    as (_ & _ & Hrun).
  - vm_compute. reflexivity.
  - rewrite Hrun.
    + vm_compute. reflexivity.
    + constructor.
      * exists "Take snapshots.". vm_compute. reflexivity.
      * constructor; [|constructor].
        exists "Test your restores.". vm_compute. reflexivity.
Defined.

(** C4: once the embedding call has returned, the aggregation that the
    search tool logs returns the projections of the hits of the vector
    search over the stored chunks.  When there is no hit the tool returns the
    empty string; when the hits have text bodies it returns these bodies
    joined by one blank line, exactly one segment per hit. *)
Theorem search_no_results_no_padding (key : key_param) (svc : services)
    (q : string) (w : world) (qv : list float) (w1 : world) :
  generate_embedding key svc q w = (Ret qv, w1) ->
  log (get_information_for_question_answering key svc q w).2
  = log w1 ++
      [ EvConnect (next_client key w1);
        EvAggregate
          (get_collection (next_client key w1) "ai_agents" "chunked_docs")
          (search_pipeline qv)
          (project_row search_projection <$> search_hits key svc w1 qv) ] /\
  (search_hits key svc w1 qv = [] ->
   (get_information_for_question_answering key svc q w).1 = Ret (VStr "")) /\
  (Forall has_text_body (fst <$> search_hits key svc w1 qv) ->
   (get_information_for_question_answering key svc q w).1
   = Ret (VStr (String.concat blank_line
                  (omap body_text (fst <$> search_hits key svc w1 qv)))) /\
   length (omap body_text (fst <$> search_hits key svc w1 qv))
   = length (search_hits key svc w1 qv)).
Proof.
  intros Hemb.
  rewrite (search_after_embedding key svc q w qv w1 Hemb). cbn [fst snd log].
  rewrite bodies_search_hits, search_results_search_hits.
  split; [done|]. split.
  - by intros ->.
  - intros Hall. apply str_items_text_bodies in Hall as [-> Hlen].
    split; [done|]. by rewrite Hlen, length_fmap.
Qed.

Lemma search_no_results_no_padding_witness :
  (get_information_for_question_answering demo_key demo_services
     "How do I back up?" (demo_world [chunk_a; chunk_b])).1
  = Ret (VStr ("Test your restores." ++ blank_line ++ "Take snapshots.")) /\
  length (search_hits demo_key demo_services
            {| store := demo_store [chunk_a; chunk_b]; clients := 0;
               log := [ EvEmbed "voyage-key" "How do I back up?"
                          "voyage-3-lite" "query"
                          (Ret {| embeddings := [replicate 13 0.5%float] |}) ] |}
            (replicate 13 0.5%float))
  = 2.
Proof.
  destruct (search_no_results_no_padding demo_key demo_services
              "How do I back up?" (demo_world [chunk_a; chunk_b])
              (replicate 13 0.5%float)
              {| store := demo_store [chunk_a; chunk_b]; clients := 0;
                 log := [ EvEmbed "voyage-key" "How do I back up?"
                            "voyage-3-lite" "query"
                            (Ret {| embeddings := [replicate 13 0.5%float] |}) ] |})
    as (_ & _ & Hrun).
  - vm_compute. reflexivity.
  - destruct Hrun as [Hrun Hlen].
    + constructor.
      * exists "Test your restores.". vm_compute. reflexivity.
      * constructor; [|constructor].
        exists "Take snapshots.". vm_compute. reflexivity.
    + split.
      * rewrite Hrun. vm_compute. reflexivity.
      * rewrite <- Hlen. vm_compute. reflexivity.
Defined.

(** The scenario of the specification: two stored chunks give two segments,
    not five. *)
Example search_two_chunks :
  (get_information_for_question_answering demo_key demo_services
     "How do I back up?" (demo_world [chunk_a; chunk_b])).1
  = Ret (VStr ("Test your restores." ++ blank_line ++ "Take snapshots.")).
Proof. vm_compute. reflexivity. Qed.

Example search_no_chunks :
  (get_information_for_question_answering demo_key demo_services
     "How do I back up?" (demo_world [])).1
  = Ret (VStr "").
Proof. vm_compute. reflexivity. Qed.

(** C5: past the embedding call, the search tool submits one aggregation, on
    the collection [chunked_docs] of the database [ai_agents]: a vector
    search on the path "embedding" with the query vector, 150 candidates and
    limit 5, then a projection that drops [_id] and keeps the body and the
    score.  Every result has a score, the body of its chunk, and no other
    field. *)
Theorem search_submits_fixed_pipeline (key : key_param) (svc : services)
    (q : string) (w : world) (qv : list float) (w1 : world) :
  generate_embedding key svc q w = (Ret qv, w1) ->
  exists c results,
    log (get_information_for_question_answering key svc q w).2
    = log w1 ++
        [ EvConnect c;
          EvAggregate
            {| coll_client := c; coll_db := "ai_agents";
               coll_name := "chunked_docs" |}
            [ VectorSearch {| index := "vector_index";
                              path := "embedding";
                              queryVector := qv;
                              numCandidates := 150;
                              limit := 5 |};
              Project [ ("_id", Exclude);
                        ("body", Include);
                        ("score", Meta "vectorSearchScore") ] ]
            results ] /\
    Forall (fun r : document =>
              exists (d : document) (score : float),
                d ∈ chunked_docs w /\
                r !! "body" = d !! "body" /\
                r !! "score" = Some (VFloat score) /\
                forall k, k <> "body" -> k <> "score" -> r !! k = None)
      results.
Proof.
  intros Hemb.
  exists (next_client key w1), (search_results key svc w1 qv).
  rewrite (search_after_embedding key svc q w qv w1 Hemb). cbn [snd log].
  split; [done|].
  apply Forall_forall. intros r Hr.
  apply search_results_chunks in Hr as (d & score & Hd & Hrest).
  exists d, score.
  by rewrite <- (generate_embedding_chunks key svc q w _ w1 Hemb).
Qed.

Lemma search_submits_fixed_pipeline_witness :
  exists c results,
    log (get_information_for_question_answering demo_key demo_services
           "How do I back up?" (demo_world [chunk_a; chunk_b])).2
    = [ EvEmbed "voyage-key" "How do I back up?" "voyage-3-lite" "query"
          (Ret {| embeddings := [replicate 13 0.5%float] |}) ] ++
        [ EvConnect c;
          EvAggregate
            {| coll_client := c; coll_db := "ai_agents";
               coll_name := "chunked_docs" |}
            [ VectorSearch {| index := "vector_index";
                              path := "embedding";
                              queryVector := replicate 13 0.5%float;
                              numCandidates := 150;
                              limit := 5 |};
              Project [ ("_id", Exclude);
                        ("body", Include);
                        ("score", Meta "vectorSearchScore") ] ]
            results ] /\
    Forall (fun r : document =>
              exists (d : document) (score : float),
                d ∈ chunked_docs (demo_world [chunk_a; chunk_b]) /\
                r !! "body" = d !! "body" /\
                r !! "score" = Some (VFloat score) /\
                forall k, k <> "body" -> k <> "score" -> r !! k = None)
      results.
Proof.
  apply (search_submits_fixed_pipeline demo_key demo_services
           "How do I back up?" (demo_world [chunk_a; chunk_b])
           (replicate 13 0.5%float)
           {| store := demo_store [chunk_a; chunk_b]; clients := 0;
              log := [ EvEmbed "voyage-key" "How do I back up?" "voyage-3-lite"
                         "query" (Ret {| embeddings := [replicate 13 0.5%float] |}) ] |}).
  vm_compute. reflexivity.
Defined.



(** A chunk without a body makes the join fail. *)
Example search_chunk_without_body :
  (get_information_for_question_answering demo_key demo_services
     "How do I back up?" (demo_world [chunk_a; chunk_without_body])).1
  = Raise TypeError.
Proof. vm_compute. reflexivity. Qed.

(** ** Connections *)

Lemma connects_app (es1 es2 : list event) :
  connects (es1 ++ es2) = connects es1 ++ connects es2.
Proof. apply omap_app. Qed.

Lemma next_client_fresh (key : key_param) (w : world) :
  well_formed w -> next_client key w ∉ connects (log w).
Proof.
  intros Hwf Hin. apply Hwf in Hin. cbn in Hin. lia.
Qed.

Lemma well_formed_step (w : world) (es : list event) (st : gmap string (gmap string (list document))) :
  well_formed w ->
  (forall c, c ∈ connects es -> client_id c <= clients w) ->
  well_formed {| store := st; clients := S (clients w); log := log w ++ es |}.
Proof.
  intros Hwf Hes c. cbn [log clients]. rewrite connects_app, elem_of_app.
  intros [Hc|Hc]; [apply Hwf in Hc | apply Hes in Hc]; lia.
Qed.

(** C6: an invocation of either tool changes nothing in the store.  Unless
    the embedding call of the search tool raises, which ends the invocation
    before the store is approached, the invocation creates exactly one
    client, from the configured URI, which no earlier event of the log
    created, and issues exactly one store operation, through this client, on
    the database [ai_agents] and one of the collections [chunked_docs] and
    [full_docs]. *)
Theorem tool_call_opens_its_own_connection (key : key_param)
    (svc : services) (t : tool) (q : string) (w : world) :
  t ∈ [question_answering_tool key svc; summarization_tool key] ->
  well_formed w ->
  exists es,
    log (func t q w).2 = log w ++ es /\
    store (func t q w).2 = store w /\
    well_formed (func t q w).2 /\
    ((exists c coll,
        connects es = [c] /\ store_ops es = [coll] /\
        (c ∉ connects (log w)) /\
        client_uri c = mongodb_uri key /\
        coll_client coll = c /\
        coll_db coll = "ai_agents" /\
        (coll_name coll = "chunked_docs" \/ coll_name coll = "full_docs")) \/
     (t = question_answering_tool key svc /\
      connects es = [] /\ store_ops es = [] /\
      exists e,
        generate_embedding key svc q w = (Raise e, (func t q w).2) /\
        (func t q w).1 = Raise e)).
Proof.
  intros Ht Hwf.
  apply elem_of_cons in Ht as [-> | Ht];
    [| apply elem_of_cons in Ht as [-> | Ht]; [| by apply elem_of_nil in Ht]].
  - cbn [func question_answering_tool].
    destruct (generate_embedding key svc q w) as [[qv|e] w1] eqn:Hemb.
    + destruct (generate_embedding_world key svc q w _ w1 Hemb)
        as (Hstore & Hclients & answer & Hlog).
      rewrite (search_after_embedding key svc q w qv w1 Hemb). cbn [fst snd].
      exists [ EvEmbed (voyage_api_key key) q "voyage-3-lite" "query" answer;
               EvConnect (next_client key w1);
               EvAggregate
                 (get_collection (next_client key w1) "ai_agents" "chunked_docs")
                 (search_pipeline qv) (search_results key svc w1 qv) ].
      cbn [log store]. rewrite Hlog, <- app_assoc. cbn [app].
      split; [done|]. split; [done|]. split.
      * rewrite Hclients, Hstore.
        apply (well_formed_step w _ (store w) Hwf).
        intros c Hc. cbn in Hc. apply list_elem_of_singleton in Hc as ->.
        cbn. lia.
      * left. exists (next_client key w1),
          (get_collection (next_client key w1) "ai_agents" "chunked_docs").
        repeat split; try done; [| by left].
        unfold next_client. rewrite Hclients. by apply next_client_fresh.
    + destruct (generate_embedding_world key svc q w _ w1 Hemb)
        as (Hstore & Hclients & answer & Hlog).
      rewrite run_search, Hemb. cbn [fst snd].
      exists [EvEmbed (voyage_api_key key) q "voyage-3-lite" "query" answer].
      split; [done|]. split; [done|]. split.
      * intros c. rewrite Hlog, connects_app, Hclients. cbn.
        rewrite app_nil_r. apply Hwf.
      * right. repeat split; eauto.
  - cbn [func summarization_tool]. rewrite run_lookup. cbn [fst snd log store].
    exists [ EvConnect (next_client key w);
             EvFindOne (get_collection (next_client key w) "ai_agents" "full_docs")
               (lookup_filter q) lookup_projection
               (run_find_one (lookup_filter q) lookup_projection (full_docs w)) ].
    split; [done|]. split; [done|]. split.
    + apply (well_formed_step w _ (store w) Hwf).
      intros c Hc. cbn in Hc. apply list_elem_of_singleton in Hc as ->.
      cbn. lia.
    + left. exists (next_client key w),
        (get_collection (next_client key w) "ai_agents" "full_docs").
      repeat split; try done; [by apply next_client_fresh | by right].
Qed.

Lemma tool_call_opens_its_own_connection_witness :
  exists es,
    log (func (summarization_tool demo_key) "Backups" (demo_world [])).2
    = log (demo_world []) ++ es /\
    store (func (summarization_tool demo_key) "Backups" (demo_world [])).2
    = store (demo_world []) /\
    well_formed (func (summarization_tool demo_key) "Backups" (demo_world [])).2 /\
    ((exists c coll,
        connects es = [c] /\ store_ops es = [coll] /\
        (c ∉ connects (log (demo_world []))) /\
        client_uri c = mongodb_uri demo_key /\
        coll_client coll = c /\
        coll_db coll = "ai_agents" /\
        (coll_name coll = "chunked_docs" \/ coll_name coll = "full_docs")) \/
     (summarization_tool demo_key
      = question_answering_tool demo_key demo_services /\
      connects es = [] /\ store_ops es = [] /\
      exists e,
        generate_embedding demo_key demo_services "Backups" (demo_world [])
        = (Raise e,
           (func (summarization_tool demo_key) "Backups" (demo_world [])).2) /\
        (func (summarization_tool demo_key) "Backups" (demo_world [])).1
        = Raise e)).
Proof.
  apply (tool_call_opens_its_own_connection demo_key demo_services
           (summarization_tool demo_key) "Backups" (demo_world [])).
  - right. left.
  - intros c Hc. vm_compute in Hc. inversion Hc.
Defined.

(** Two invocations in a row, whatever the tools, never use the same
    client. *)
Example consecutive_calls_use_distinct_clients :
  connects
    (log (get_information_for_question_answering demo_key demo_services
            "How do I back up?"
            (get_page_content_for_summarization demo_key "Backups"
               (demo_world [chunk_a; chunk_b])).2).2)
  = [ {| client_id := 0; client_uri := "mongodb://localhost:27017" |};
      {| client_id := 1; client_uri := "mongodb://localhost:27017" |} ].
Proof. vm_compute. reflexivity. Qed.

(** A search whose embedding call fails ends before any client is created. *)
Example failed_embedding_opens_nothing :
  get_information_for_question_answering demo_key failing_services
    "How do I back up?" (demo_world [chunk_a; chunk_b])
  = (Raise (ProviderError "unreachable"),
     {| store := demo_store [chunk_a; chunk_b]; clients := 0;
        log := [ EvEmbed "voyage-key" "How do I back up?" "voyage-3-lite"
                   "query" (Raise (ProviderError "unreachable")) ] |}).
Proof. vm_compute. reflexivity. Qed.

(** ** The embedding *)

(** C8: with a provider of fixed dimension per model, every call of
    [generate_embedding] that the provider answers returns a vector whose
    length is the dimension of the model "voyage-3-lite", whatever the text
    and whenever the call is made; a call returns nothing only when the
    provider raises. *)
Theorem generate_embedding_fixed_length (key : key_param) (svc : services)
    (dim : string -> nat) (text : string) (w : world) :
  fixed_dimension svc dim ->
  match (generate_embedding key svc text w).1 with
  | Ret embedding => length embedding = dim "voyage-3-lite"
  | Raise e =>
      voyage_embed svc (log w) (voyage_api_key key) text "voyage-3-lite" "query"
      = Raise e
  end.
Proof.
  intros Hdim. rewrite run_generate_embedding. cbn [fst].
  destruct (voyage_embed svc (log w) (voyage_api_key key) text
              "voyage-3-lite" "query") as [response|e] eqn:Hanswer; [|done].
  destruct (Hdim _ _ _ _ _ _ Hanswer) as [Hne Hall].
  destruct (embeddings response) as [|v vs]; [done|].
  cbn. by inversion Hall.
Qed.

Lemma generate_embedding_fixed_length_witness :
  match (generate_embedding demo_key demo_services
           "What are some best practices for data backups in MongoDB?"
           (demo_world [])).1 with
  | Ret embedding => length embedding = 13
  | Raise e =>
      voyage_embed demo_services [] "voyage-key"
        "What are some best practices for data backups in MongoDB?"
        "voyage-3-lite" "query"
      = Raise e
  end.
Proof.
  apply (generate_embedding_fixed_length demo_key demo_services String.length
           "What are some best practices for data backups in MongoDB?"
           (demo_world [])).
  intros h api_key text model input_type response Hanswer.
  injection Hanswer as <-. cbn [embeddings].
  split; [discriminate|].
  constructor; [apply length_replicate | constructor].
Defined.

(** ** The entry point *)

(** C7: [main] sends one request to the chat model: model "gpt-4o",
    temperature 0, the two tools bound, the prompt that names them and the
    fixed question as the user message.  When the model answers, [main]
    prints the [tool_calls] of the answer and returns; it calls no tool and
    sends no second request, whatever the answer asks for. *)
Theorem main_single_request (key : key_param) (svc : services) (w : world) :
  exists req answer,
    req_api_key req = openai_api_key key /\
    req_model req = "gpt-4o" /\
    req_temperature req = 0%Z /\
    schema_name <$> req_tools req
    = [ "get_information_for_question_answering";
        "get_page_content_for_summarization" ] /\
    req_messages req
    = [ {| msg_role := Human;
           msg_content :=
             "You are a helpful AI assistant. You are provided with tools to answer questions and summarize technical documentation related to MongoDB. Think step-by-step and use these tools to get the information required to answer the user query. Do not re-run tools unless absolutely necessary. If you are not able to get enough information using the tools, reply with I DON'T KNOW. You have access to the following tools: get_information_for_question_answering, get_page_content_for_summarization." |};
        {| msg_role := Human;
           msg_content :=
             "What are some best practices for data backups in MongoDB?" |} ] /\
    answer = chat_completion svc (log w ++ [EvConnect (next_client key w)]) req /\
    main key svc w
    = (match answer with
       | Ret _ => Ret tt
       | Raise e => Raise e
       end,
       {| store := store w; clients := S (clients w);
          log := log w ++
            [EvConnect (next_client key w); EvChat req answer] ++
            match answer with
            | Ret response =>
                [ EvPrint (OutStr "Tool call check:");
                  EvPrint (OutToolCalls (tool_calls response)) ]
            | Raise _ => []
            end |}).
Proof.
  unfold main, mbind, M_bind, bind. rewrite run_init_mongodb.
  unfold invoke, print, emit. cbn [log store clients].
  match goal with
  | |- context [chat_completion svc ?h ?r] =>
      set (req := r); set (answer := chat_completion svc h req)
  end.
  exists req, answer.
  split; [done|]. split; [done|]. split; [done|]. split; [done|].
  split; [vm_compute; reflexivity|]. split; [done|].
  destruct answer as [response|e]; cbn [log store clients];
    rewrite <- ?app_assoc; reflexivity.
Qed.

(** With a model that asks for the search tool, the request is printed and
    nothing is searched. *)
Example main_demo_log :
  log (main demo_key demo_services (demo_world [chunk_a; chunk_b])).2
  = [ EvConnect {| client_id := 0; client_uri := "mongodb://localhost:27017" |};
      EvChat
        {| req_api_key := "openai-key";
           req_model := "gpt-4o";
           req_temperature := 0;
           req_tools :=
             [ schema_of (question_answering_tool demo_key demo_services);
               schema_of (summarization_tool demo_key) ];
           req_messages :=
             format_messages
               (partial
                  (from_messages
                     [ FromString
                         ("You are a helpful AI assistant."
                          ++ " You are provided with tools to answer questions and summarize technical documentation related to MongoDB."
                          ++ " Think step-by-step and use these tools to get the information required to answer the user query."
                          ++ " Do not re-run tools unless absolutely necessary."
                          ++ " If you are not able to get enough information using the tools, reply with I DON'T KNOW."
                          ++ " You have access to the following tools: {tool_names}.");
                       MessagesPlaceholder "messages" ])
                  "tool_names"
                  "get_information_for_question_answering, get_page_content_for_summarization")
               [demo_question] |}
        (Ret {| content := "";
                tool_calls :=
                  [ {| call_name := "get_information_for_question_answering";
                       call_args := [("user_query", demo_question)];
                       call_id := "call_1" |} ] |});
      EvPrint (OutStr "Tool call check:");
      EvPrint
        (OutToolCalls
           [ {| call_name := "get_information_for_question_answering";
                call_args := [("user_query", demo_question)];
                call_id := "call_1" |} ]) ].
Proof. vm_compute. reflexivity. Qed.

(** ** Further properties of [generate_embedding] *)

(** X1: [generate_embedding] sends exactly one request, for the model
    "voyage-3-lite" with input type "query" and the configured key, and
    touches neither the store nor the clients; when the provider raises, the
    same exception comes out: there is no second attempt. *)
Theorem generate_embedding_one_request (key : key_param) (svc : services)
    (text : string) (w : world) :
  exists answer,
    answer = voyage_embed svc (log w) (voyage_api_key key) text
               "voyage-3-lite" "query" /\
    (generate_embedding key svc text w).2
    = {| store := store w; clients := clients w;
         log := log w ++
           [EvEmbed (voyage_api_key key) text "voyage-3-lite" "query" answer] |} /\
    (forall e, answer = Raise e ->
               (generate_embedding key svc text w).1 = Raise e).
Proof.
  eexists. split; [reflexivity|]. rewrite run_generate_embedding. cbn [fst snd].
  split; [done|]. by intros e ->.
Qed.

Lemma generate_embedding_one_request_witness :
  (generate_embedding demo_key failing_services "Backups" (demo_world [])).1
  = Raise (ProviderError "unreachable").
Proof.
  destruct (generate_embedding_one_request demo_key failing_services
              "Backups" (demo_world [])) as (answer & Hanswer & _ & Hraise).
  apply Hraise. rewrite Hanswer. vm_compute. reflexivity.
Defined.

(** X2: of the vectors in the provider's answer, [generate_embedding]
    returns the first and ignores the others; an answer without any vector
    raises [IndexError]. *)
Theorem generate_embedding_first_vector (key : key_param) (svc : services)
    (text : string) (w : world) (response : embeddings_object) :
  voyage_embed svc (log w) (voyage_api_key key) text "voyage-3-lite" "query"
  = Ret response ->
  (embeddings response = [] ->
   (generate_embedding key svc text w).1 = Raise IndexError) /\
  (forall v rest,
     embeddings response = v :: rest ->
     (generate_embedding key svc text w).1 = Ret v).
Proof.
  intros Hanswer. rewrite run_generate_embedding, Hanswer. cbn [fst].
  split.
  - by intros ->.
  - by intros v rest ->.
Qed.

Lemma generate_embedding_first_vector_witness :
  (generate_embedding demo_key empty_answer_services "Backups"
     (demo_world [])).1
  = Raise IndexError.
Proof.
  apply (generate_embedding_first_vector demo_key empty_answer_services
           "Backups" (demo_world []) {| embeddings := [] |}).
  - vm_compute. reflexivity.
  - reflexivity.
Defined.

(** ** Further properties of [init_mongodb] *)

(** X3: whenever [init_mongodb] returns, the store is as before and the two
    handles returned are on the client returned, created from the configured
    URI, in the database [ai_agents]; in a world where identifiers were
    handed out in order, this client was created by no earlier event, it is
    the only client the call adds, and identifiers stay in order. *)
Theorem init_mongodb_fresh_client (key : key_param) (w : world)
    (c : client) (vs full : collection) (w' : world) :
  well_formed w ->
  init_mongodb key w = (Ret (c, vs, full), w') ->
  store w' = store w /\
  well_formed w' /\
  (c ∉ connects (log w)) /\
  connects (log w') = connects (log w) ++ [c] /\
  client_uri c = mongodb_uri key /\
  vs = {| coll_client := c; coll_db := "ai_agents";
          coll_name := "chunked_docs" |} /\
  full = {| coll_client := c; coll_db := "ai_agents";
            coll_name := "full_docs" |}.
Proof.
  intros Hwf. rewrite run_init_mongodb. intros [= <- <- <- <-].
  cbn [store log].
  split; [done|]. split.
  - apply (well_formed_step w [EvConnect (next_client key w)] (store w) Hwf).
    intros c Hc. cbn in Hc. apply list_elem_of_singleton in Hc as ->. cbn. lia.
  - split; [by apply next_client_fresh|]. split; [|done].
    by rewrite connects_app.
Qed.

Lemma init_mongodb_fresh_client_witness :
  {| client_id := 1; client_uri := "mongodb://localhost:27017" |}
  ∉ connects
      (log (get_page_content_for_summarization demo_key "Backups"
              (demo_world [])).2).
Proof.
  destruct (init_mongodb_fresh_client demo_key
              (get_page_content_for_summarization demo_key "Backups"
                 (demo_world [])).2
              {| client_id := 1; client_uri := "mongodb://localhost:27017" |}
              (get_collection
                 {| client_id := 1; client_uri := "mongodb://localhost:27017" |}
                 "ai_agents" "chunked_docs")
              (get_collection
                 {| client_id := 1; client_uri := "mongodb://localhost:27017" |}
                 "ai_agents" "full_docs")
              (init_mongodb demo_key
                 (get_page_content_for_summarization demo_key "Backups"
                    (demo_world [])).2).2)
    as (_ & _ & Hfresh & _).
  - intros c Hc. vm_compute in Hc.
    apply list_elem_of_singleton in Hc as ->. vm_compute. lia.
  - vm_compute. reflexivity.
  - exact Hfresh.
Defined.

(** ** Further properties of the lookup tool *)

(** X4: the subscript [document["body"]] of the lookup tool never raises
    [KeyError]: it is only reached with a projected document that has the
    key.  Whatever the tool returns is the string "Document not found" or the
    body stored in a document of the collection whose title is exactly the
    input. *)
Theorem lookup_returns_sentinel_or_stored_body (key : key_param)
    (t : string) (w : world) :
  (forall k,
     (get_page_content_for_summarization key t w).1 <> Raise (KeyError k)) /\
  (forall v,
     (get_page_content_for_summarization key t w).1 = Ret v ->
     v = VStr "Document not found" \/
     exists d, d ∈ full_docs w /\ has_title t d /\ d !! "body" = Some v).
Proof.
  rewrite run_lookup. cbn [fst]. unfold lookup_filter.
  destruct (List.find (matches [("title", VStr t)]) (full_docs w)) as [d|] eqn:Hfind.
  - apply find_some in Hfind as [Hin Hmatch].
    apply matches_title in Hmatch. apply list_elem_of_In in Hin.
    destruct (d !! "body") as [v0|] eqn:Hb.
    + split; [discriminate|]. intros v [= <-]. right. eauto.
    + split; [discriminate|]. intros v [= <-]. by left.
  - split; [discriminate|]. intros v [= <-]. by left.
Qed.

Lemma lookup_returns_sentinel_or_stored_body_witness :
  VStr "Use mongodump regularly." = VStr "Document not found" \/
  exists d, d ∈ full_docs (demo_world []) /\ has_title "Backups" d /\
            d !! "body" = Some (VStr "Use mongodump regularly.").
Proof.
  apply (proj2 (lookup_returns_sentinel_or_stored_body demo_key "Backups"
                  (demo_world []))).
  vm_compute. reflexivity.
Defined.

(** X5: the body of the document is returned as it is stored, whatever its
    type: a null body comes back as [None], not as a string and not as the
    sentinel. *)
Theorem lookup_returns_body_of_any_type (key : key_param) (w : world)
    (t : string) (d : document) (v : value) (pre post : list document) :
  full_docs w = pre ++ d :: post ->
  Forall (fun d' => ~ has_title t d') pre ->
  has_title t d ->
  d !! "body" = Some v ->
  (get_page_content_for_summarization key t w).1 = Ret v.
Proof.
  intros Hdocs Hpre Ht Hb. rewrite run_lookup. cbn [fst].
  rewrite Hdocs. unfold lookup_filter.
  rewrite (find_title_first t pre d post Hpre Ht). by rewrite Hb.
Qed.

Lemma lookup_returns_body_of_any_type_witness :
  (get_page_content_for_summarization demo_key "Pending"
     (library_world [backups_doc; null_body_doc] [])).1
  = Ret VNone.
Proof.
  apply (lookup_returns_body_of_any_type demo_key
           (library_world [backups_doc; null_body_doc] []) "Pending"
           null_body_doc VNone [backups_doc] []).
  - vm_compute. reflexivity.
  - repeat constructor. vm_compute. discriminate.
  - vm_compute. reflexivity.
  - vm_compute. reflexivity.
Defined.

(** X6: when several documents bear the title, the first in the order of
    the collection decides: the documents after it, of whatever title, have
    no influence on what the tool returns. *)
Theorem lookup_first_match_decides (key : key_param) (w w' : world)
    (t : string) (d : document) (pre post post' : list document) :
  full_docs w = pre ++ d :: post ->
  full_docs w' = pre ++ d :: post' ->
  Forall (fun d' => ~ has_title t d') pre ->
  has_title t d ->
  (get_page_content_for_summarization key t w).1
  = (get_page_content_for_summarization key t w').1.
Proof.
  intros Hdocs Hdocs' Hpre Ht. rewrite !run_lookup. cbn [fst].
  rewrite Hdocs, Hdocs'. unfold lookup_filter.
  by rewrite !(find_title_first t pre d _ Hpre Ht).
Qed.

Lemma lookup_first_match_decides_witness :
  (get_page_content_for_summarization demo_key "Backups"
     (library_world [untitled_body_doc; backups_doc; second_backups_doc] [])).1
  = (get_page_content_for_summarization demo_key "Backups"
       (library_world [untitled_body_doc; backups_doc] [])).1.
Proof.
  apply (lookup_first_match_decides demo_key
           (library_world [untitled_body_doc; backups_doc; second_backups_doc] [])
           (library_world [untitled_body_doc; backups_doc] [])
           "Backups" backups_doc [untitled_body_doc] [second_backups_doc] []).
  - vm_compute. reflexivity.
  - vm_compute. reflexivity.
  - repeat constructor. vm_compute. discriminate.
  - vm_compute. reflexivity.
Defined.

(** X7: the lookup tool creates one client and submits one [find_one], on
    the collection [full_docs] of the database [ai_agents], with the filter
    [{"title": input}] and the projection [{"_id": 0, "body": 1}]; it sends
    nothing to the embedding provider or the chat model and changes nothing
    in the store.  The document it gets back has no key but "body". *)
Theorem lookup_submits_one_find_one (key : key_param) (t : string)
    (w : world) :
  exists c result,
    (get_page_content_for_summarization key t w).2
    = {| store := store w; clients := S (clients w);
         log := log w ++
           [ EvConnect c;
             EvFindOne
               {| coll_client := c; coll_db := "ai_agents";
                  coll_name := "full_docs" |}
               [("title", VStr t)]
               [("_id", Exclude); ("body", Include)]
               result ] |} /\
    client_uri c = mongodb_uri key /\
    (forall (d : document) (k : string),
       result = Some d -> k <> "body" -> d !! k = None).
Proof.
  rewrite run_lookup. cbn [snd].
  exists (next_client key w),
    (run_find_one (lookup_filter t) lookup_projection (full_docs w)).
  split; [done|]. split; [done|].
  intros d k Hres Hk. unfold run_find_one in Hres.
  destruct (List.find (matches (lookup_filter t)) (full_docs w)) as [d0|];
    [|discriminate].
  cbn [fmap option_fmap option_map] in Hres. injection Hres as <-.
  unfold lookup_projection. rewrite project_body_only.
  destruct (d0 !! "body"); [by rewrite lookup_singleton_ne | done].
Qed.

Lemma lookup_submits_one_find_one_witness :
  exists c result,
    (get_page_content_for_summarization demo_key "Backups" (demo_world [])).2
    = {| store := store (demo_world []); clients := S (clients (demo_world []));
         log := log (demo_world []) ++
           [ EvConnect c;
             EvFindOne
               {| coll_client := c; coll_db := "ai_agents";
                  coll_name := "full_docs" |}
               [("title", VStr "Backups")]
               [("_id", Exclude); ("body", Include)]
               result ] |} /\
    client_uri c = mongodb_uri demo_key /\
    (forall (d : document) (k : string),
       result = Some d -> k <> "body" -> d !! k = None).
Proof.
  apply (lookup_submits_one_find_one demo_key "Backups" (demo_world [])).
Defined.

(** X8: the lookup tool reads nothing but the collection [full_docs]: in two
    worlds that agree on it, whatever else they hold and whatever happened
    before, it returns the same. *)
Theorem lookup_reads_only_full_docs (key key' : key_param) (t : string)
    (w w' : world) :
  full_docs w = full_docs w' ->
  (get_page_content_for_summarization key t w).1
  = (get_page_content_for_summarization key' t w').1.
Proof.
  intros Hdocs. rewrite !run_lookup. cbn [fst]. by rewrite Hdocs.
Qed.

Lemma lookup_reads_only_full_docs_witness :
  (get_page_content_for_summarization demo_key "Backups" (demo_world [])).1
  = (get_page_content_for_summarization demo_key "Backups"
       (get_information_for_question_answering demo_key demo_services
          "How do I back up?" (demo_world [chunk_a; chunk_b])).2).1.
Proof.
  apply (lookup_reads_only_full_docs demo_key demo_key "Backups").
  vm_compute. reflexivity.
Defined.

(** ** Further properties of the search tool *)

Lemma bodies_hits (svc : services) (docs : list document)
    (ranking : list (nat * float)) (n : nat) :
  bodies
    (project_row search_projection
     <$> take n
           (omap (fun '(i, score) => (fun d => (d, Some score)) <$> docs !! i)
              ranking))
  = bodies (take n (omap (fun i => docs !! i) (fst <$> ranking))).
Proof.
  revert n. induction ranking as [|[i score] ranking IH]; intros n.
  - by destruct n.
  - cbn [omap list_omap fmap list_fmap fst].
    destruct (docs !! i) as [d|] eqn:Hi; cbn [fmap option_fmap option_map].
    + destruct n as [|n]; [done|]. cbn [take fmap list_fmap bodies].
      unfold bodies in *. cbn [fmap list_fmap]. f_equal; [|apply IH].
      unfold dict_get, search_projection. by rewrite project_body_score.
    + apply IH.
Qed.

(** The bodies the search tool joins are those of the ranked chunks. *)
Lemma bodies_search_results (key : key_param) (svc : services) (w : world)
    (qv : list float) :
  bodies (search_results key svc w qv)
  = bodies (ranked_chunks svc (log w ++ [EvConnect (next_client key w)]) qv
              (chunked_docs w)).
Proof.
  rewrite search_results_hits. unfold vector_search_stage, ranked_chunks.
  cbn [limit index path queryVector numCandidates search_args].
  apply bodies_hits; exact svc.
Qed.

(** X9: the similarity scores are projected but never used: two
    deployments whose embedding providers answer alike and whose indexes rank
    the same positions, with whatever scores, make the search tool return the
    same. *)
Theorem search_ignores_scores (key : key_param) (svc svc' : services)
    (q : string) (w : world) :
  (forall h api_key text model input_type,
     voyage_embed svc h api_key text model input_type
     = voyage_embed svc' h api_key text model input_type) ->
  (forall h ix p qv n docs,
     fst <$> knn svc h ix p qv n docs = fst <$> knn svc' h ix p qv n docs) ->
  (get_information_for_question_answering key svc q w).1
  = (get_information_for_question_answering key svc' q w).1.
Proof.
  intros Hembed Hrank.
  assert (Hgen : generate_embedding key svc q w
                 = generate_embedding key svc' q w).
  { by rewrite !run_generate_embedding, Hembed. }
  rewrite !run_search, <- Hgen.
  destruct (generate_embedding key svc q w) as [[qv|e] w1]; [|done].
  cbn [fst]. rewrite !bodies_search_results. unfold ranked_chunks.
  by rewrite Hrank.
Qed.

Lemma search_ignores_scores_witness :
  (get_information_for_question_answering demo_key demo_services
     "How do I back up?" (demo_world [chunk_a; chunk_b])).1
  = (get_information_for_question_answering demo_key rescored_services
       "How do I back up?" (demo_world [chunk_a; chunk_b])).1.
Proof.
  apply (search_ignores_scores demo_key demo_services rescored_services
           "How do I back up?" (demo_world [chunk_a; chunk_b])).
  - intros h api_key text model input_type. reflexivity.
  - intros h ix p qv n docs. simpl.
    rewrite <- !list_fmap_compose. reflexivity.
Defined.

(** X10: the search tool reads nothing of the store but the collection
    [chunked_docs]: in two worlds with the same past that agree on it, it
    returns the same, whatever the other collections hold. *)
Theorem search_reads_only_chunked_docs (key : key_param) (svc : services)
    (q : string) (w w' : world) :
  chunked_docs w = chunked_docs w' ->
  log w = log w' ->
  clients w = clients w' ->
  (get_information_for_question_answering key svc q w).1
  = (get_information_for_question_answering key svc q w').1.
Proof.
  intros Hdocs Hlog Hclients. rewrite !run_search, !run_generate_embedding.
  rewrite <- Hlog.
  destruct (voyage_embed svc (log w) (voyage_api_key key) q
              "voyage-3-lite" "query") as [response|e]; [|done].
  destruct (embeddings response !! 0) as [qv|]; [|done].
  cbn [fst]. rewrite !bodies_search_results.
  unfold next_client, chunked_docs in *. cbn [log clients store].
  by rewrite <- Hclients, Hdocs.
Qed.

Lemma search_reads_only_chunked_docs_witness :
  (get_information_for_question_answering demo_key demo_services
     "How do I back up?" (demo_world [chunk_a; chunk_b])).1
  = (get_information_for_question_answering demo_key demo_services
       "How do I back up?" (library_world [] [chunk_a; chunk_b])).1.
Proof.
  apply (search_reads_only_chunked_docs demo_key demo_services
           "How do I back up?" (demo_world [chunk_a; chunk_b])
           (library_world [] [chunk_a; chunk_b])).
  - vm_compute. reflexivity.
  - reflexivity.
  - reflexivity.
Defined.

(** X11: over an empty collection of chunks, the search tool returns the
    empty string once the embedding call has returned, whatever the index
    answers. *)
Theorem search_empty_collection (key : key_param) (svc : services)
    (q : string) (w : world) (qv : list float) (w1 : world) :
  chunked_docs w = [] ->
  generate_embedding key svc q w = (Ret qv, w1) ->
  (get_information_for_question_answering key svc q w).1 = Ret (VStr "").
Proof.
  intros Hnone Hemb.
  rewrite (search_after_embedding key svc q w qv w1 Hemb). cbn [fst].
  assert (Hres : search_results key svc w1 qv = []).
  { destruct (search_results key svc w1 qv) as [|r rs] eqn:Hrs; [done|].
    assert (Hr : r ∈ search_results key svc w1 qv) by (rewrite Hrs; left).
    apply search_results_chunks in Hr as (d & _ & Hd & _).
    rewrite (generate_embedding_chunks key svc q w _ w1 Hemb), Hnone in Hd.
    by apply elem_of_nil in Hd. }
  by rewrite Hres.
Qed.

Lemma search_empty_collection_witness :
  (get_information_for_question_answering demo_key demo_services
     "How do I back up?" (demo_world [])).1
  = Ret (VStr "").
Proof.
  eapply (search_empty_collection demo_key demo_services
            "How do I back up?" (demo_world [])).
  - vm_compute. reflexivity.
  - vm_compute. reflexivity.
Defined.

(** X12: when the embedding call raises, be it the provider's exception or
    the [IndexError] of an answer without vectors, the search tool raises
    the same exception at once: the request to the provider is the only
    event, no client is created and the store is not queried. *)
Theorem search_embedding_failure (key : key_param) (svc : services)
    (q : string) (w : world) (e : exn) (w1 : world) :
  generate_embedding key svc q w = (Raise e, w1) ->
  get_information_for_question_answering key svc q w = (Raise e, w1) /\
  store w1 = store w /\
  clients w1 = clients w /\
  exists answer,
    log w1 = log w ++
      [EvEmbed (voyage_api_key key) q "voyage-3-lite" "query" answer].
Proof.
  intros Hemb. split; [by rewrite run_search, Hemb|].
  by apply generate_embedding_world in Hemb.
Qed.

Lemma search_embedding_failure_witness :
  get_information_for_question_answering demo_key empty_answer_services
    "How do I back up?" (demo_world [chunk_a; chunk_b])
  = (Raise IndexError,
     {| store := demo_store [chunk_a; chunk_b]; clients := 0;
        log := [ EvEmbed "voyage-key" "How do I back up?" "voyage-3-lite"
                   "query" (Ret {| embeddings := [] |}) ] |}).
Proof.
  apply (search_embedding_failure demo_key empty_answer_services
           "How do I back up?" (demo_world [chunk_a; chunk_b])).
  vm_compute. reflexivity.
Defined.

(** ** Tool calls one after the other *)

(** What an invocation of a tool does to the world: the store stays, the
    log grows, and the clients it creates take the identifiers from the
    counter of the world it starts in up to the counter it leaves. *)
Lemma tool_call_effect (key : key_param) (svc : services) (t : tool)
    (q : string) (w : world) :
  t ∈ tools key svc ->
  exists es,
    log (func t q w).2 = log w ++ es /\
    store (func t q w).2 = store w /\
    clients w <= clients (func t q w).2 /\
    forall c, c ∈ connects es ->
              clients w <= client_id c < clients (func t q w).2.
Proof.
  unfold tools. intros Ht.
  apply elem_of_cons in Ht as [-> | Ht];
    [| apply elem_of_cons in Ht as [-> | Ht]; [| by apply elem_of_nil in Ht]].
  - cbn [func question_answering_tool]. rewrite run_search.
    destruct (generate_embedding key svc q w) as [[qv|e] w1] eqn:Hemb;
      destruct (generate_embedding_world key svc q w _ w1 Hemb)
        as (Hstore & Hclients & answer & Hlog); cbn [fst snd log store clients].
    + exists [ EvEmbed (voyage_api_key key) q "voyage-3-lite" "query" answer;
               EvConnect (next_client key w1);
               EvAggregate
                 (get_collection (next_client key w1) "ai_agents" "chunked_docs")
                 (search_pipeline qv) (search_results key svc w1 qv) ].
      rewrite Hlog, <- app_assoc, Hclients. cbn [app].
      split; [done|]. split; [done|]. split; [lia|].
      intros c Hc. cbn in Hc. apply list_elem_of_singleton in Hc as ->.
      cbn. lia.
    + exists [EvEmbed (voyage_api_key key) q "voyage-3-lite" "query" answer].
      rewrite Hclients. split; [done|]. split; [done|]. split; [lia|].
      intros c Hc. cbn in Hc. by apply elem_of_nil in Hc.
  - cbn [func summarization_tool]. rewrite run_lookup.
    cbn [fst snd log store clients].
    eexists. split; [reflexivity|]. split; [done|]. split; [lia|].
    intros c Hc. cbn in Hc. apply list_elem_of_singleton in Hc as ->.
    cbn. lia.
Qed.

(** X13: two invocations of tools never share a client: the clients that an
    invocation creates differ from those created by any invocation that
    starts once the first has ended (in its final world or in a later one,
    where the counter of clients is not smaller). *)
Theorem tool_calls_share_no_client (key : key_param) (svc : services)
    (t1 t2 : tool) (q1 q2 : string) (w w2 : world) :
  t1 ∈ tools key svc ->
  t2 ∈ tools key svc ->
  clients (func t1 q1 w).2 <= clients w2 ->
  exists es1 es2,
    log (func t1 q1 w).2 = log w ++ es1 /\
    log (func t2 q2 w2).2 = log w2 ++ es2 /\
    forall c1 c2, c1 ∈ connects es1 -> c2 ∈ connects es2 -> c1 <> c2.
Proof.
  intros Ht1 Ht2 Hlater.
  destruct (tool_call_effect key svc t1 q1 w Ht1) as (es1 & Hlog1 & _ & _ & Hc1).
  destruct (tool_call_effect key svc t2 q2 w2 Ht2) as (es2 & Hlog2 & _ & _ & Hc2).
  exists es1, es2. split; [done|]. split; [done|].
  intros c1 c2 Hin1 Hin2 ->.
  apply Hc1 in Hin1. apply Hc2 in Hin2. lia.
Qed.

Lemma tool_calls_share_no_client_witness :
  exists es1 es2,
    log (func (summarization_tool demo_key) "Backups"
           (demo_world [chunk_a; chunk_b])).2
    = log (demo_world [chunk_a; chunk_b]) ++ es1 /\
    log (func (question_answering_tool demo_key demo_services)
           "How do I back up?"
           (func (summarization_tool demo_key) "Backups"
              (demo_world [chunk_a; chunk_b])).2).2
    = log (func (summarization_tool demo_key) "Backups"
             (demo_world [chunk_a; chunk_b])).2 ++ es2 /\
    forall c1 c2, c1 ∈ connects es1 -> c2 ∈ connects es2 -> c1 <> c2.
Proof.
  apply (tool_calls_share_no_client demo_key demo_services
           (summarization_tool demo_key)
           (question_answering_tool demo_key demo_services)
           "Backups" "How do I back up?" (demo_world [chunk_a; chunk_b])
           (func (summarization_tool demo_key) "Backups"
              (demo_world [chunk_a; chunk_b])).2).
  - right. left.
  - left.
  - vm_compute. lia.
Defined.

(** X14: an invocation of either tool does not change what a later lookup
    returns: the lookup gives the same result after the invocation as
    before it. *)
Theorem lookup_unchanged_by_tool_call (key : key_param) (svc : services)
    (t' : tool) (q' t : string) (w : world) :
  t' ∈ tools key svc ->
  (get_page_content_for_summarization key t (func t' q' w).2).1
  = (get_page_content_for_summarization key t w).1.
Proof.
  intros Ht'.
  destruct (tool_call_effect key svc t' q' w Ht') as (es & _ & Hstore & _).
  rewrite !run_lookup. cbn [fst]. unfold full_docs. by rewrite Hstore.
Qed.

Lemma lookup_unchanged_by_tool_call_witness :
  (get_page_content_for_summarization demo_key "Backups"
     (func (question_answering_tool demo_key demo_services)
        "How do I back up?" (demo_world [chunk_a; chunk_b])).2).1
  = (get_page_content_for_summarization demo_key "Backups"
       (demo_world [chunk_a; chunk_b])).1.
Proof.
  apply (lookup_unchanged_by_tool_call demo_key demo_services
           (question_answering_tool demo_key demo_services)
           "How do I back up?" "Backups" (demo_world [chunk_a; chunk_b])).
  left.
Defined.

(** ** Further properties of [main] *)

Lemma connects_prints (outs : list printed) : connects (EvPrint <$> outs) = [].
Proof. by induction outs. Qed.

Lemma store_ops_prints (outs : list printed) : store_ops (EvPrint <$> outs) = [].
Proof. by induction outs. Qed.

(** The events of [main]: a client, a request to the chat model, prints. *)
Lemma main_events (key : key_param) (svc : services) (w : world) :
  exists req answer outs,
    (main key svc w).2
    = {| store := store w; clients := S (clients w);
         log := log w ++
           EvConnect (next_client key w) :: EvChat req answer
           :: (EvPrint <$> outs) |}.
Proof.
  unfold main, mbind, M_bind, bind. rewrite run_init_mongodb.
  unfold invoke, print, emit. cbn [log store clients].
  match goal with
  | |- context [chat_completion svc ?h ?r] =>
      set (req := r); set (answer := chat_completion svc h req)
  end.
  exists req, answer.
  destruct answer as [response|e]; cbn [snd log store clients].
  - exists [OutStr "Tool call check:"; OutToolCalls (tool_calls response)].
    by rewrite <- !app_assoc.
  - exists []. by rewrite <- !app_assoc.
Qed.

(** X15: [main] creates one client through [init_mongodb] and never uses it:
    no event of [main] queries the store, the store is left as it was, and
    identifiers stay in order. *)
Theorem main_never_queries_the_store (key : key_param) (svc : services)
    (w : world) :
  exists es,
    log (main key svc w).2 = log w ++ es /\
    store (main key svc w).2 = store w /\
    connects es = [next_client key w] /\
    store_ops es = [] /\
    (well_formed w -> well_formed (main key svc w).2).
Proof.
  destruct (main_events key svc w) as (req & answer & outs & Hmain).
  rewrite Hmain. cbn [log store].
  exists (EvConnect (next_client key w) :: EvChat req answer
          :: (EvPrint <$> outs)).
  split; [done|]. split; [done|].
  assert (Hconn : connects (EvConnect (next_client key w) :: EvChat req answer
                            :: (EvPrint <$> outs)) = [next_client key w]).
  { change (next_client key w :: connects (EvPrint <$> outs)
            = [next_client key w]). by rewrite connects_prints. }
  split; [done|]. split.
  - change (store_ops (EvPrint <$> outs) = []). apply store_ops_prints.
  - intros Hwf. apply (well_formed_step w _ (store w) Hwf).
    intros c Hc. rewrite Hconn in Hc.
    apply list_elem_of_singleton in Hc as ->. cbn. lia.
Qed.

Lemma main_never_queries_the_store_witness :
  well_formed (main demo_key demo_services (demo_world [chunk_a; chunk_b])).2.
Proof.
  destruct (main_never_queries_the_store demo_key demo_services
              (demo_world [chunk_a; chunk_b])) as (es & _ & _ & _ & _ & Hwf).
  apply Hwf. intros c Hc. vm_compute in Hc. inversion Hc.
Defined.
